(** Shallow embedding of [src/calculator.js] (class [Calculator]).

    JavaScript numbers are IEEE-754 binary64 values: they are modelled by
    Rocq's primitive floats ([PrimFloat]), whose [+ - * /] are the binary64
    operations (so [10 / 0] is [infinity]) and whose [=?] / [<?] are the
    IEEE comparisons used by JavaScript's [===] / [<] on numbers
    ([-0 === 0] holds, [NaN === NaN] does not).

    A method call is a function from the receiver's state to an
    [Outcome]: either it returns a number together with the new state, or
    it throws an error, carrying the state at the moment of the throw. *)

From Stdlib Require Import List String Bool.
From Stdlib Require Import Floats Lia PeanoNat.
Import ListNotations.

Open Scope string_scope.

(** * JavaScript values and errors *)

(** The arguments of the validating methods are arbitrary JavaScript
    values, since they test [typeof x !== 'number']. *)
Inductive JSValue :=
| JSNumber (f : float)
| JSString (s : string)
| JSBoolean (b : bool)
| JSUndefined
| JSNull
| JSObject.

(** [typeof v === 'number'] *)
Definition typeof_number (v : JSValue) : bool :=
  match v with JSNumber _ => true | _ => false end.

(** The global [isFinite] on a value already known to be a number. *)
Definition isFinite (f : float) : bool := is_finite f.

(** [x === 0] on numbers (IEEE equality). *)
Definition eq_zero (f : float) : bool := (f =? 0)%float.

Inductive JSError :=
| TypeError (msg : string)
| Error (msg : string).

(** * History entries

    Each entry is one template string of the source; the structured
    constructor records the operands and the result interpolated into it
    (number-to-string formatting is not modelled). *)
Inductive Entry :=
| EAdd (a b result : float)            (* `${a} + ${b} = ${result}` *)
| ESubtract (a b result : float)       (* `${a} - ${b} = ${result}` *)
| EDivide (a b result : float)         (* `${a} / ${b} = ${result}` *)
| EPercentage (value percent result : float)
                                       (* `${percent}% of ${value} = ${result}` *)
| EPercentOf (part whole result : float)
                                       (* `${part} is ${result}% of ${whole}` *)
| ESquare (n result : float)           (* `${n}² = ${result}` *)
| ESqrt (value result : float)         (* `√${value} = ${result}` *)
| ECbrt (value result : float)         (* `∛${value} = ${result}` *)
| ENthRoot (n value result : float).   (* `${n}√${value} = ${result}` *)

(** The instance state: [this.history]. *)
Record Calculator := mkCalculator { history : list Entry }.

(** [constructor() { this.history = []; }] *)
Definition new_Calculator : Calculator := mkCalculator [].

(** [this.history.push(e)] *)
Definition push (self : Calculator) (e : Entry) : Calculator :=
  mkCalculator (history self ++ [e]).

Inductive Outcome :=
| Returns (result : float) (self : Calculator)
| Throws (err : JSError) (self : Calculator).

Definition throws (o : Outcome) : bool :=
  match o with Throws _ _ => true | Returns _ _ => false end.

(** * Methods *)

Section Calculator_methods.

(** [Math.pow] and the JavaScript remainder operator [%] on numbers are
    only used by [root]; they are left abstract. *)
Variable Math_pow : float -> float -> float.
Variable js_rem : float -> float -> float.

Definition add (a b : float) (self : Calculator) : Outcome :=
  let result := (a + b)%float in
  Returns result (push self (EAdd a b result)).

Definition subtract (a b : float) (self : Calculator) : Outcome :=
  let result := (a - b)%float in
  Returns result (push self (ESubtract a b result)).

Definition divide (a b : float) (self : Calculator) : Outcome :=
  let result := (a / b)%float in
  Returns result (push self (EDivide a b result)).

(** [multiply(a, b) { return a * b; }]: no history entry. *)
Definition multiply (a b : float) (self : Calculator) : Outcome :=
  Returns (a * b)%float self.

Definition percentage (value percent : JSValue) (self : Calculator) : Outcome :=
  match value, percent with
  | JSNumber v, JSNumber p =>
      if negb (isFinite v) || negb (isFinite p) then
        Throws (Error "Arguments must be finite numbers") self
      else
        let result := ((v * p) / 100)%float in
        Returns result (push self (EPercentage v p result))
  | _, _ => Throws (TypeError "Both arguments must be numbers") self
  end.

Definition percentOf (part whole : JSValue) (self : Calculator) : Outcome :=
  match part, whole with
  | JSNumber p, JSNumber w =>
      if negb (isFinite p) || negb (isFinite w) then
        Throws (Error "Arguments must be finite numbers") self
      else if eq_zero w then
        Throws (Error "Cannot calculate percentage of zero") self
      else
        let result := ((p / w) * 100)%float in
        Returns result (push self (EPercentOf p w result))
  | _, _ => Throws (TypeError "Both arguments must be numbers") self
  end.

Definition square (n : JSValue) (self : Calculator) : Outcome :=
  match n with
  | JSNumber x =>
      if negb (isFinite x) then
        Throws (Error "Argument must be a finite number") self
      else
        let result := (x * x)%float in
        Returns result (push self (ESquare x result))
  | _ => Throws (TypeError "Argument must be a number") self
  end.

(** [root(value, n = 2)]: the default applies when [n] is [undefined]. *)
Definition root (value n0 : JSValue) (self : Calculator) : Outcome :=
  let n := match n0 with JSUndefined => JSNumber 2 | v => v end in
  match value, n with
  | JSNumber v, JSNumber k =>
      if negb (isFinite v) || negb (isFinite k) then
        Throws (Error "Arguments must be finite numbers") self
      else if eq_zero k then
        Throws (Error "Root degree cannot be zero") self
      else if (v <? 0)%float && eq_zero (js_rem k 2) then
        Throws (Error "Cannot calculate even root of negative number") self
      else
        let result :=
          if (v <? 0)%float && negb (eq_zero (js_rem k 2))
          then (- Math_pow (abs v) (1 / k))%float
          else Math_pow v (1 / k) in
        let e :=
          if (k =? 2)%float then ESqrt v result
          else if (k =? 3)%float then ECbrt v result
          else ENthRoot k v result in
        Returns result (push self e)
  | _, _ => Throws (TypeError "Both arguments must be numbers") self
  end.

End Calculator_methods.

(** * Properties of the history *)

(** [h'] is [h] with exactly one entry pushed at its end. *)
Definition appends_one (self self' : Calculator) : Prop :=
  exists e, history self' = (history self ++ [e])%list.

Lemma push_appends_one (self : Calculator) (e : Entry) :
  appends_one self (push self e).
Proof. exists e. reflexivity. Qed.

Create HintDb calc.
#[local] Hint Resolve push_appends_one : calc.

Ltac outcome_inv H :=
  injection H as <- <-; eauto with calc.

(** Splits on every boolean guard of the goal's method body. *)
Ltac split_guards :=
  repeat match goal with
         | |- context [if ?c then _ else _] => destruct c eqn:?
         | H : context [if ?c then _ else _] |- _ => destruct c eqn:?
         end.

(** * Claims *)

(** C8: [divide] never throws. For every pair of numbers it returns
    [a / b] (binary64 division) and pushes exactly one history entry;
    in particular [divide(10, 0)] returns [Infinity]. *)
Theorem divide_never_throws :
  (forall (a b : float) (self : Calculator),
      divide a b self = Returns (a / b)%float (push self (EDivide a b (a / b)%float))) /\
  (forall (a b : float) (self : Calculator), throws (divide a b self) = false) /\
  (forall self : Calculator,
      divide 10 0 self = Returns infinity (push self (EDivide 10 0 infinity))).
Proof.
  split; [|split].
  - intros a b self. reflexivity.
  - intros a b self. reflexivity.
  - intros self. reflexivity.
Qed.

(** C9: [multiply] returns the product and leaves the history as it
    was, while each successful call of [add], [subtract], [divide],
    [percentage], [percentOf], [square] and [root] pushes exactly one
    entry onto the history. *)
Theorem multiply_skips_history_others_append_one :
  (forall a b self, multiply a b self = Returns (a * b)%float self) /\
  (forall a b self r self', add a b self = Returns r self' -> appends_one self self') /\
  (forall a b self r self', subtract a b self = Returns r self' -> appends_one self self') /\
  (forall a b self r self', divide a b self = Returns r self' -> appends_one self self') /\
  (forall v p self r self', percentage v p self = Returns r self' -> appends_one self self') /\
  (forall p w self r self', percentOf p w self = Returns r self' -> appends_one self self') /\
  (forall n self r self', square n self = Returns r self' -> appends_one self self') /\
  (forall Math_pow js_rem v n self r self',
      root Math_pow js_rem v n self = Returns r self' -> appends_one self self').
Proof.
  repeat split.
  - intros a b self r self' H. unfold add in H. outcome_inv H.
  - intros a b self r self' H. unfold subtract in H. outcome_inv H.
  - intros a b self r self' H. unfold divide in H. outcome_inv H.
  - intros [v| | | | |] [p| | | | |] self r self' H; simpl in H;
      try discriminate H; split_guards; try discriminate H; outcome_inv H.
  - intros [p| | | | |] [w| | | | |] self r self' H; simpl in H;
      try discriminate H; split_guards; try discriminate H; outcome_inv H.
  - intros [x| | | | |] self r self' H; simpl in H;
      try discriminate H; split_guards; try discriminate H; outcome_inv H.
  - intros Math_pow js_rem [v| | | | |] [k| | | | |] self r self' H;
      unfold root in H; simpl in H;
      try discriminate H; split_guards; try discriminate H; outcome_inv H.
Qed.

Lemma multiply_skips_history_others_append_one_witness :
  percentOf (JSNumber 20) (JSNumber 200) new_Calculator
    = Returns 10 (mkCalculator [EPercentOf 20 200 10]) /\
  appends_one new_Calculator (mkCalculator [EPercentOf 20 200 10]).
Proof.
  split; [reflexivity|].
  destruct multiply_skips_history_others_append_one
    as (_ & _ & _ & _ & _ & HpercentOf & _).
  apply (HpercentOf (JSNumber 20) (JSNumber 200) new_Calculator 10%float).
  reflexivity.
Defined.

(** C10: [percentOf(part, whole)] throws exactly when an argument is not
    a number, an argument is not finite, or [whole === 0]; every throwing
    call leaves the history as it was. *)
Theorem percentOf_throws_iff_invalid :
  forall (part whole : JSValue) (self : Calculator),
    (throws (percentOf part whole self) = true <->
       typeof_number part = false \/ typeof_number whole = false \/
       (exists p, part = JSNumber p /\ isFinite p = false) \/
       (exists w, whole = JSNumber w /\ isFinite w = false) \/
       (exists w, whole = JSNumber w /\ eq_zero w = true)) /\
    (forall (err : JSError) (self' : Calculator),
       percentOf part whole self = Throws err self' -> self' = self).
Proof.
  intros [p| | | | |] [w| | | | |] self;
    (split; [|intros err self' H; simpl in H; split_guards;
              try discriminate H; injection H as _ <-; reflexivity]);
    simpl; try (split; intros; [now auto | reflexivity]).
  destruct (isFinite p) eqn:Hp, (isFinite w) eqn:Hw, (eq_zero w) eqn:Hz;
    simpl; split; intros H; try reflexivity; try discriminate H;
    try solve [right; right; left; eauto
              | right; right; right; left; eauto
              | right; right; right; right; eauto].
  destruct H as [H|[H|[(p' & E & F)|[(w' & E & F)|(w' & E & F)]]]];
    try discriminate H; injection E as <-; congruence.
Qed.

Lemma percentOf_throws_iff_invalid_witness :
  percentOf (JSNumber 20) (JSNumber 0) new_Calculator
    = Throws (Error "Cannot calculate percentage of zero") new_Calculator /\
  new_Calculator = new_Calculator.
Proof.
  split; [reflexivity|].
  apply (proj2 (percentOf_throws_iff_invalid (JSNumber 20) (JSNumber 0) new_Calculator)
           (Error "Cannot calculate percentage of zero") new_Calculator).
  reflexivity.
Defined.

(** * Further properties of [src/calculator.js] *)

(** [getHistory() { return this.history; }] *)
Definition getHistory (self : Calculator) : list Entry := history self.

(** [clearHistory() { this.history = []; }] *)
Definition clearHistory (self : Calculator) : Calculator := mkCalculator [].

(** The outcome is a thrown [TypeError]. *)
Definition type_error (o : Outcome) : bool :=
  match o with Throws (TypeError _) _ => true | _ => false end.

(** The state an outcome leaves behind, returned or thrown. *)
Definition outcome_state (o : Outcome) : Calculator :=
  match o with Returns _ s | Throws _ s => s end.

Ltac js_cases :=
  repeat match goal with
         | v : JSValue |- _ => destruct v
         end.

(** [percentage(value, percent)] throws exactly when an argument is not a
    number or not finite, and a throwing call leaves the history as it
    was. *)
Theorem percentage_throws_iff_invalid :
  forall (value percent : JSValue) (self : Calculator),
    (throws (percentage value percent self) = true <->
       typeof_number value = false \/ typeof_number percent = false \/
       (exists v, value = JSNumber v /\ isFinite v = false) \/
       (exists p, percent = JSNumber p /\ isFinite p = false)) /\
    (forall (err : JSError) (self' : Calculator),
       percentage value percent self = Throws err self' -> self' = self).
Proof.
  intros [v| | | | |] [p| | | | |] self;
    (split; [|intros err self' H; simpl in H; split_guards;
              try discriminate H; injection H as _ <-; reflexivity]);
    simpl; try (split; intros; [now auto | reflexivity]).
  destruct (isFinite v) eqn:Hv, (isFinite p) eqn:Hp;
    simpl; split; intros H; try reflexivity; try discriminate H;
    try solve [right; right; left; eauto | right; right; right; eauto].
  destruct H as [H|[H|[(v' & E & F)|(p' & E & F)]]];
    try discriminate H; injection E as <-; congruence.
Qed.

Lemma percentage_throws_iff_invalid_witness :
  percentage (JSNumber infinity) (JSNumber 10) new_Calculator
    = Throws (Error "Arguments must be finite numbers") new_Calculator /\
  new_Calculator = new_Calculator.
Proof.
  split; [reflexivity|].
  apply (proj2 (percentage_throws_iff_invalid (JSNumber infinity) (JSNumber 10)
                  new_Calculator)
           (Error "Arguments must be finite numbers") new_Calculator).
  reflexivity.
Defined.

(** [square(n)] throws exactly when [n] is not a finite number; on
    success it returns [n * n] and records [ESquare n (n * n)]; a
    throwing call leaves the history as it was. *)
Theorem square_spec :
  forall (n : JSValue) (self : Calculator),
    (throws (square n self) = true <->
       typeof_number n = false \/ (exists x, n = JSNumber x /\ isFinite x = false)) /\
    (forall x, n = JSNumber x -> isFinite x = true ->
       square n self = Returns (x * x)%float (push self (ESquare x (x * x)%float))) /\
    (forall (err : JSError) (self' : Calculator),
       square n self = Throws err self' -> self' = self).
Proof.
  intros [x| | | | |] self; simpl.
  1: { destruct (isFinite x) eqn:Hx; simpl.
    + split; [|split].
      * split; intros H; [discriminate H|].
        destruct H as [H|(x' & E & F)]; [discriminate H|].
        injection E as <-; congruence.
      * intros x' E _; injection E as <-; reflexivity.
      * intros err self' H; discriminate H.
    + split; [|split].
      * split; intros _; [eauto | reflexivity].
      * intros x' E F; injection E as <-; congruence.
      * intros err self' H; injection H as _ <-; reflexivity. }
  all: split; [split; intros; [now auto | reflexivity]|].
  all: split; [intros x E; discriminate E|].
  all: intros err self' H; injection H as _ <-; reflexivity.
Qed.

Lemma square_spec_witness :
  square (JSNumber (-4)) new_Calculator
    = Returns 16 (push new_Calculator (ESquare (-4) 16)) /\
  square (JSNumber (-4)) new_Calculator
    = Returns (-4 * -4)%float (push new_Calculator (ESquare (-4) (-4 * -4)%float)).
Proof.
  split; [reflexivity|].
  apply (proj1 (proj2 (square_spec (JSNumber (-4)) new_Calculator)) (-4)%float);
    reflexivity.
Defined.


(** The degree [root] uses: the default [n = 2] replaces [undefined]. *)
Definition root_degree (n0 : JSValue) : JSValue :=
  match n0 with JSUndefined => JSNumber 2 | v => v end.

(** Breaks hypotheses built from disjunctions, conjunctions, existentials
    and equal [JSNumber]s, then closes contradictory goals. *)
Ltac js_inv :=
  repeat match goal with
         | H : _ \/ _ |- _ => destruct H
         | H : exists _, _ |- _ => destruct H
         | H : _ /\ _ |- _ => destruct H
         | H : JSNumber _ = JSNumber _ |- _ => injection H as H; subst
         end;
  try discriminate; try congruence.

(** [root(value, n)] throws exactly when an argument (the degree after
    its default) is not a number or not finite, the degree is [0], or
    the value is negative and [n % 2 === 0]; a throwing call leaves the
    history as it was. *)
Theorem root_throws_iff_invalid :
  forall (Math_pow js_rem : float -> float -> float)
         (value n : JSValue) (self : Calculator),
    (throws (root Math_pow js_rem value n self) = true <->
       typeof_number value = false \/ typeof_number (root_degree n) = false \/
       (exists v, value = JSNumber v /\ isFinite v = false) \/
       (exists k, root_degree n = JSNumber k /\ isFinite k = false) \/
       (exists k, root_degree n = JSNumber k /\ eq_zero k = true) \/
       (exists v k, value = JSNumber v /\ root_degree n = JSNumber k /\
                    (v <? 0)%float = true /\ eq_zero (js_rem k 2%float) = true)) /\
    (forall (err : JSError) (self' : Calculator),
       root Math_pow js_rem value n self = Throws err self' -> self' = self).
Proof.
  intros Math_pow js_rem value n self.
  split.
  - destruct value as [v| | | | |]; destruct n as [k| | | | |]; simpl;
      try (split; intros; [now auto | reflexivity]);
      destruct (isFinite v) eqn:Hv, (v <? 0)%float eqn:Hneg;
      try (destruct (isFinite k) eqn:Hk, (eq_zero k) eqn:Hz);
      try match goal with
          | |- context [js_rem ?K ?T] => destruct (eq_zero (js_rem K T)) eqn:Hrem
          end;
      simpl; split; intros H; js_inv;
      solve [ right; right; left; eauto
            | right; right; right; left; eauto
            | right; right; right; right; left; eauto
            | right; right; right; right; right; eauto 6 ].
  - intros err self' H.
    destruct value as [v| | | | |]; destruct n as [k| | | | |]; simpl in H;
      try (injection H as _ <-; reflexivity);
      split_guards; try discriminate H; injection H as _ <-; reflexivity.
Qed.

Lemma root_throws_iff_invalid_witness :
  root (fun x _ => sqrt x) (fun _ _ => 0%float) (JSNumber (-16)) JSUndefined
       new_Calculator
    = Throws (Error "Cannot calculate even root of negative number") new_Calculator /\
  new_Calculator = new_Calculator.
Proof.
  split; [reflexivity|].
  apply (proj2 (root_throws_iff_invalid (fun x _ => sqrt x) (fun _ _ => 0%float)
                  (JSNumber (-16)) JSUndefined new_Calculator)
           (Error "Cannot calculate even root of negative number") new_Calculator).
  reflexivity.
Defined.


(** A successful [root(value, n)] call had finite arguments and a
    non-zero degree; it returns [-Math.pow(|value|, 1/n)] for a negative
    value (the odd-degree branch) and [Math.pow(value, 1/n)] otherwise,
    and records a [√] entry for degree 2, a [∛] entry for degree 3 and
    an [n√] entry for any other degree. *)
Theorem root_success :
  forall (Math_pow js_rem : float -> float -> float)
         (v k : float) (self : Calculator) (r : float) (self' : Calculator),
    root Math_pow js_rem (JSNumber v) (JSNumber k) self = Returns r self' ->
    isFinite v = true /\ isFinite k = true /\ eq_zero k = false /\
    r = (if (v <? 0)%float then (- Math_pow (abs v) (1 / k))%float
         else Math_pow v (1 / k)%float) /\
    self' = push self (if (k =? 2)%float then ESqrt v r
                       else if (k =? 3)%float then ECbrt v r
                       else ENthRoot k v r).
Proof.
  intros Math_pow js_rem v k self r self' H.
  unfold root in H; simpl in H.
  destruct (isFinite v) eqn:Hv, (isFinite k) eqn:Hk, (eq_zero k) eqn:Hz,
    (v <? 0)%float eqn:Hneg, (eq_zero (js_rem k 2%float)) eqn:Hrem;
    simpl in H; try discriminate H;
    injection H as <- <-; repeat split; reflexivity.
Qed.

Lemma root_success_witness :
  root (fun x _ => sqrt x) (fun _ _ => 0%float) (JSNumber 16) (JSNumber 2)
       new_Calculator = Returns 4 (mkCalculator [ESqrt 16 4]) /\
  mkCalculator [ESqrt 16 4] = push new_Calculator (ESqrt 16 4).
Proof.
  split; [reflexivity|].
  exact (proj2 (proj2 (proj2 (proj2
    (root_success (fun x _ => sqrt x) (fun _ _ => 0%float) 16 2 new_Calculator 4
       (mkCalculator [ESqrt 16 4]) eq_refl))))).
Defined.

(** [root(value)] with the degree omitted is [root(value, 2)], and a
    successful call of it records a square-root ([√]) entry. *)
Theorem root_default_degree :
  forall (Math_pow js_rem : float -> float -> float)
         (value : JSValue) (self : Calculator),
    root Math_pow js_rem value JSUndefined self
      = root Math_pow js_rem value (JSNumber 2) self /\
    (forall v r self',
       value = JSNumber v ->
       root Math_pow js_rem value JSUndefined self = Returns r self' ->
       self' = push self (ESqrt v r)).
Proof.
  intros Math_pow js_rem value self.
  split; [reflexivity|].
  intros v r self' -> H.
  destruct (root_success Math_pow js_rem v 2 self r self' H)
    as (_ & _ & _ & _ & E).
  exact E.
Qed.

Lemma root_default_degree_witness :
  root (fun x _ => sqrt x) (fun _ _ => 0%float) (JSNumber 16) JSUndefined
       new_Calculator = Returns 4 (mkCalculator [ESqrt 16 4]) /\
  mkCalculator [ESqrt 16 4] = push new_Calculator (ESqrt 16 4).
Proof.
  split; [reflexivity|].
  exact (proj2 (root_default_degree (fun x _ => sqrt x) (fun _ _ => 0%float)
                  (JSNumber 16) new_Calculator)
           16%float 4%float (mkCalculator [ESqrt 16 4]) eq_refl eq_refl).
Defined.

(** The validating methods throw a [TypeError] exactly when one of
    their arguments is not a number ([root]'s omitted degree counts as
    the number 2); every other failure is a plain [Error]. *)
Theorem type_error_iff_non_number :
  (forall value percent self,
     type_error (percentage value percent self) = true <->
     typeof_number value = false \/ typeof_number percent = false) /\
  (forall part whole self,
     type_error (percentOf part whole self) = true <->
     typeof_number part = false \/ typeof_number whole = false) /\
  (forall n self,
     type_error (square n self) = true <-> typeof_number n = false) /\
  (forall Math_pow js_rem value n self,
     type_error (root Math_pow js_rem value n self) = true <->
     typeof_number value = false \/ typeof_number (root_degree n) = false).
Proof.
  split; [|split; [|split]]; intros *; js_cases; simpl;
    try (split; intros; [now auto | reflexivity]);
    split_guards; simpl; split; intros H; js_inv.
Qed.

(** * Sequences of method calls

    A script calls methods one after the other on one instance; the first
    throw propagates and ends the script. *)
Inductive Call :=
| CallAdd (a b : float)
| CallSubtract (a b : float)
| CallDivide (a b : float)
| CallMultiply (a b : float)
| CallPercentage (value percent : JSValue)
| CallPercentOf (part whole : JSValue)
| CallSquare (n : JSValue)
| CallRoot (value n : JSValue).

(** The calls that push a history entry when they succeed. *)
Definition records (c : Call) : bool :=
  match c with CallMultiply _ _ => false | _ => true end.

Definition count_records (cs : list Call) : nat :=
  List.length (filter records cs).

Section Scripts.

Variable Math_pow : float -> float -> float.
Variable js_rem : float -> float -> float.

Definition exec (c : Call) (self : Calculator) : Outcome :=
  match c with
  | CallAdd a b => add a b self
  | CallSubtract a b => subtract a b self
  | CallDivide a b => divide a b self
  | CallMultiply a b => multiply a b self
  | CallPercentage v p => percentage v p self
  | CallPercentOf p w => percentOf p w self
  | CallSquare n => square n self
  | CallRoot v n => root Math_pow js_rem v n self
  end.

(** [inr] the final state, or [inl] the error thrown and the state at
    the throw. *)
Fixpoint run (cs : list Call) (self : Calculator)
  : (JSError * Calculator) + Calculator :=
  match cs with
  | [] => inr self
  | c :: cs' =>
      match exec c self with
      | Returns _ self' => run cs' self'
      | Throws err self' => inl (err, self')
      end
  end.

(** One call: a success appends one entry if the call records and none
    otherwise; a throw comes from a recording call and keeps the state. *)
Lemma exec_effect (c : Call) (self : Calculator) :
  (forall r self', exec c self = Returns r self' ->
     exists l, history self' = (history self ++ l)%list /\
               List.length l = (if records c then 1 else 0)) /\
  (forall err self', exec c self = Throws err self' ->
     self' = self /\ records c = true).
Proof.
  split.
  - intros r self' H.
    destruct c; simpl in H |- *; js_cases; simpl in H;
      try discriminate H; split_guards; try discriminate H;
      injection H as _ <-;
      solve [ exists []; rewrite app_nil_r; split; reflexivity
            | eexists [_]; split; reflexivity ].
  - intros err self' H.
    destruct c; simpl in H |- *; js_cases; simpl in H;
      try discriminate H; split_guards; try discriminate H;
      injection H as _ <-; split; reflexivity.
Qed.

End Scripts.

Lemma run_appends :
  forall Math_pow js_rem (cs : list Call) (self self' : Calculator),
    run Math_pow js_rem cs self = inr self' ->
    exists l, history self' = (history self ++ l)%list /\
              List.length l = count_records cs.
Proof.
  intros Math_pow js_rem cs.
  induction cs as [|c cs IH]; intros self self' H; simpl in H.
  - injection H as <-. exists []. rewrite app_nil_r. split; reflexivity.
  - destruct (exec Math_pow js_rem c self) as [r s1|err s1] eqn:Hc;
      [|discriminate H].
    destruct (proj1 (exec_effect Math_pow js_rem c self) r s1 Hc) as (l1 & E1 & L1).
    destruct (IH s1 self' H) as (l2 & E2 & L2).
    exists (l1 ++ l2)%list. split.
    + rewrite E2, E1, app_assoc. reflexivity.
    + unfold count_records in *. rewrite length_app, L1, L2.
      simpl. destruct (records c); reflexivity.
Qed.

(** A script whose calls all succeed grows the history by exactly one
    entry per call other than [multiply], keeping the earlier entries in
    front. *)
Theorem run_success_history :
  forall Math_pow js_rem (cs : list Call) (self self' : Calculator),
    run Math_pow js_rem cs self = inr self' ->
    exists l, history self' = (history self ++ l)%list /\
              List.length l = count_records cs.
Proof. exact run_appends. Qed.


Lemma run_success_history_witness :
  run (fun x _ => sqrt x) (fun _ _ => 0%float)
      [CallAdd 5 3; CallMultiply 4 7; CallSquare (JSNumber 5)] new_Calculator
    = inr (mkCalculator [EAdd 5 3 8; ESquare 5 25]) /\
  exists l, history (mkCalculator [EAdd 5 3 8; ESquare 5 25])
            = (history new_Calculator ++ l)%list /\
            List.length l = count_records [CallAdd 5 3; CallMultiply 4 7; CallSquare (JSNumber 5)].
Proof.
  split; [reflexivity|].
  apply (run_success_history (fun x _ => sqrt x) (fun _ _ => 0%float)).
  reflexivity.
Defined.

(** A script that throws keeps every entry it had and adds strictly
    fewer entries than its recording calls: the throwing call itself
    records nothing. *)
Theorem run_throw_history :
  forall Math_pow js_rem (cs : list Call) (self : Calculator)
         (err : JSError) (self' : Calculator),
    run Math_pow js_rem cs self = inl (err, self') ->
    exists l, history self' = (history self ++ l)%list /\
              List.length l < count_records cs.
Proof.
  intros Math_pow js_rem cs.
  induction cs as [|c cs IH]; intros self err self' H; simpl in H;
    [discriminate H|].
  unfold count_records in *; simpl.
  destruct (exec Math_pow js_rem c self) as [r s1|err1 s1] eqn:Hc.
  - destruct (proj1 (exec_effect Math_pow js_rem c self) r s1 Hc) as (l1 & E1 & L1).
    destruct (IH s1 err self' H) as (l2 & E2 & L2).
    exists (l1 ++ l2)%list. split.
    + rewrite E2, E1, app_assoc. reflexivity.
    + rewrite length_app, L1.
      destruct (records c); simpl; lia.
  - injection H as <- <-.
    destruct (proj2 (exec_effect Math_pow js_rem c self) err1 s1 Hc) as (-> & ->).
    exists []. rewrite app_nil_r. split; [reflexivity|].
    simpl. lia.
Qed.

Lemma run_throw_history_witness :
  run (fun x _ => sqrt x) (fun _ _ => 0%float)
      [CallAdd 5 3; CallPercentOf (JSNumber 20) (JSNumber 0)] new_Calculator
    = inl (Error "Cannot calculate percentage of zero", mkCalculator [EAdd 5 3 8]) /\
  exists l, history (mkCalculator [EAdd 5 3 8]) = (history new_Calculator ++ l)%list /\
            List.length l < count_records [CallAdd 5 3; CallPercentOf (JSNumber 20) (JSNumber 0)].
Proof.
  split; [reflexivity|].
  apply (run_throw_history (fun x _ => sqrt x) (fun _ _ => 0%float) _ _
           (Error "Cannot calculate percentage of zero")).
  reflexivity.
Defined.

(** * Aliasing of the history array

    [getHistory] returns [this.history] itself, not a copy; [push]
    mutates that array in place, and [clearHistory] points
    [this.history] at a fresh empty array. This module models the
    arrays as a heap of references. *)
Module Aliasing.

Record Heap := mkHeap { arrays : nat -> list Entry; next_ref : nat }.

(** The instance holds a reference to its history array. *)
Record State := mkState { heap : Heap; this_history : nat }.

Definition read (h : Heap) (l : nat) : list Entry := arrays h l.

Definition write (h : Heap) (l : nat) (v : list Entry) : Heap :=
  mkHeap (fun l' => if Nat.eqb l' l then v else arrays h l') (next_ref h).

(** [[]]: a fresh empty array. *)
Definition alloc (h : Heap) : nat * Heap :=
  (next_ref h, mkHeap (fun l' => if Nat.eqb l' (next_ref h) then [] else arrays h l')
                      (S (next_ref h))).

Definition empty_heap : Heap := mkHeap (fun _ => []) 0.

(** [new Calculator()] *)
Definition new_Calculator (h : Heap) : State :=
  let (l, h') := alloc h in mkState h' l.

(** [getHistory() { return this.history; }]: the reference itself. *)
Definition getHistory (st : State) : nat := this_history st.

(** [clearHistory() { this.history = []; }] *)
Definition clearHistory (st : State) : State :=
  let (l, h') := alloc (heap st) in mkState h' l.

(** The instance as the value model sees it. *)
Definition view (st : State) : Calculator :=
  mkCalculator (read (heap st) (this_history st)).

(** A method of the value model run on the heap: its pushes land in the
    array [this.history] refers to; a throw leaves the array as it was. *)
Definition call (m : Calculator -> Outcome) (st : State) : State :=
  mkState (write (heap st) (this_history st) (history (outcome_state (m (view st)))))
          (this_history st).

Section Scripts.

Variable Math_pow : float -> float -> float.
Variable js_rem : float -> float -> float.

(** A script on the heap model; the first throw ends it. *)
Fixpoint run_heap (cs : list Call) (st : State) : (JSError * State) + State :=
  match cs with
  | [] => inr st
  | c :: cs' =>
      let st' := call (exec Math_pow js_rem c) st in
      match exec Math_pow js_rem c (view st) with
      | Returns _ _ => run_heap cs' st'
      | Throws err _ => inl (err, st')
      end
  end.

End Scripts.

(** Every reference in use was allocated. *)
Definition wf (st : State) : Prop := this_history st < next_ref (heap st).

End Aliasing.

Module AliasingFacts.
Import Aliasing.

Lemma read_write_same (h : Heap) (l : nat) (v : list Entry) :
  read (write h l v) l = v.
Proof. unfold read, write; simpl. rewrite Nat.eqb_refl. reflexivity. Qed.

Lemma read_write_other (h : Heap) (l l' : nat) (v : list Entry) :
  l' <> l -> read (write h l v) l' = read h l'.
Proof.
  intros Hne. unfold read, write; simpl.
  apply Nat.eqb_neq in Hne. rewrite Hne. reflexivity.
Qed.

Lemma view_call (m : Calculator -> Outcome) (st : State) :
  view (call m st) = outcome_state (m (view st)).
Proof.
  unfold view at 1, call; cbn [heap this_history]. rewrite read_write_same.
  destruct (outcome_state (m (view st))). reflexivity.
Qed.

End AliasingFacts.

Module AliasingScripts.
Import Aliasing AliasingFacts.

(** The heap model runs a script exactly as the value model does, on
    the array the instance referred to at the start. *)
Lemma run_heap_view :
  forall Math_pow js_rem (cs : list Call) (st : State),
    match run_heap Math_pow js_rem cs st, run Math_pow js_rem cs (view st) with
    | inr st', inr c' => view st' = c' /\ this_history st' = this_history st
    | inl (e, st'), inl (e', c') =>
        e = e' /\ view st' = c' /\ this_history st' = this_history st
    | _, _ => False
    end.
Proof.
  intros Math_pow js_rem cs.
  induction cs as [|c cs IH]; intros st; simpl; [split; reflexivity|].
  pose proof (view_call (exec Math_pow js_rem c) st) as Hv.
  destruct (exec Math_pow js_rem c (view st)) as [r s1|err s1] eqn:Hc.
  - specialize (IH (call (exec Math_pow js_rem c) st)).
    rewrite Hv in IH. simpl in IH.
    destruct (run_heap Math_pow js_rem cs _) as [[e st']|st'];
      destruct (run Math_pow js_rem cs s1) as [[e' c']|c']; try contradiction.
    + destruct IH as (? & ? & ->). auto.
    + destruct IH as (? & ->). auto.
  - rewrite Hv. auto.
Qed.

(** A script writes only to the array the instance referred to when it
    started. *)
Lemma run_heap_frame :
  forall Math_pow js_rem (cs : list Call) (st st' : State) (l : nat),
    run_heap Math_pow js_rem cs st = inr st' -> l <> this_history st ->
    read (heap st') l = read (heap st) l.
Proof.
  intros Math_pow js_rem cs.
  induction cs as [|c cs IH]; intros st st' l H Hl; simpl in H.
  - injection H as <-. reflexivity.
  - destruct (exec Math_pow js_rem c (view st)); [|discriminate H].
    rewrite (IH _ _ l H Hl). unfold call; cbn [heap].
    apply read_write_other. exact Hl.
Qed.

(** What a successful script leaves in the array it started on. *)
Lemma run_heap_appends :
  forall Math_pow js_rem (cs : list Call) (st st' : State),
    run_heap Math_pow js_rem cs st = inr st' ->
    this_history st' = this_history st /\
    exists l, read (heap st') (this_history st)
              = (read (heap st) (this_history st) ++ l)%list /\
              List.length l = count_records cs.
Proof.
  intros Math_pow js_rem cs st st' H.
  pose proof (run_heap_view Math_pow js_rem cs st) as Hv.
  rewrite H in Hv.
  destruct (run Math_pow js_rem cs (view st)) as [[e c']|c'] eqn:Hr;
    [contradiction|].
  destruct Hv as (Hview & Href).
  destruct (run_appends Math_pow js_rem cs (view st) c' Hr) as (l & E & L).
  split; [exact Href|].
  exists l. split; [|exact L].
  change (read (heap st) (this_history st)) with (history (view st)).
  rewrite <- E, <- Hview. unfold view; simpl. rewrite Href. reflexivity.
Qed.

End AliasingScripts.

Module AliasingTheorems.
Import Aliasing AliasingFacts AliasingScripts.

(** The array [getHistory()] returns is the live history, not a copy:
    after a script whose calls all succeed, an array obtained before it
    holds its old entries followed by one new entry per call other than
    [multiply], and [getHistory()] still returns that same array. *)
Theorem getHistory_array_is_live :
  forall Math_pow js_rem (cs : list Call) (st st' : State),
    run_heap Math_pow js_rem cs st = inr st' ->
    getHistory st' = getHistory st /\
    exists l, read (heap st') (getHistory st)
              = (read (heap st) (getHistory st) ++ l)%list /\
              List.length l = count_records cs.
Proof. exact run_heap_appends. Qed.

Lemma getHistory_array_is_live_witness :
  exists st',
    run_heap (fun x _ => sqrt x) (fun _ _ => 0%float)
      [CallAdd 5 3; CallMultiply 4 7; CallDivide 10 2]
      (Aliasing.new_Calculator empty_heap) = inr st' /\
    read (heap st') 0 = [EAdd 5 3 8; EDivide 10 2 5] /\
    (getHistory st' = getHistory (Aliasing.new_Calculator empty_heap) /\
     exists l, read (heap st') (getHistory (Aliasing.new_Calculator empty_heap))
               = (read (heap (Aliasing.new_Calculator empty_heap))
                       (getHistory (Aliasing.new_Calculator empty_heap)) ++ l)%list /\
               List.length l = count_records [CallAdd 5 3; CallMultiply 4 7; CallDivide 10 2]).
Proof.
  eexists. split; [reflexivity|]. split; [reflexivity|].
  apply (getHistory_array_is_live (fun x _ => sqrt x) (fun _ _ => 0%float)).
  reflexivity.
Defined.

(** [clearHistory()] replaces the array rather than emptying it: an array
    obtained from [getHistory()] before the clear keeps its entries
    through every later successful script, while the instance's new
    history holds exactly one entry per call of that script other than
    [multiply]. *)
Theorem clearHistory_detaches_array :
  forall Math_pow js_rem (cs : list Call) (st st' : State),
    wf st ->
    run_heap Math_pow js_rem cs (clearHistory st) = inr st' ->
    read (heap st') (getHistory st) = read (heap st) (getHistory st) /\
    List.length (read (heap st') (getHistory st')) = count_records cs.
Proof.
  intros Math_pow js_rem cs st st' Hwf H.
  unfold wf in Hwf. unfold getHistory.
  assert (Hne : this_history st <> this_history (clearHistory st)).
  { unfold clearHistory; simpl. lia. }
  split.
  - rewrite (run_heap_frame Math_pow js_rem cs _ _ _ H Hne).
    unfold clearHistory, read; simpl.
    destruct (Nat.eqb_neq (this_history st) (next_ref (heap st))) as [_ E].
    rewrite E by lia. reflexivity.
  - destruct (run_heap_appends Math_pow js_rem cs _ _ H) as (-> & l & E & L).
    rewrite E. unfold clearHistory, read; simpl. rewrite Nat.eqb_refl. exact L.
Qed.

Lemma clearHistory_detaches_array_witness :
  wf (call (add 5 3) (Aliasing.new_Calculator empty_heap)) /\
  exists st',
    run_heap (fun x _ => sqrt x) (fun _ _ => 0%float) [CallSquare (JSNumber 5)]
      (clearHistory (call (add 5 3) (Aliasing.new_Calculator empty_heap))) = inr st' /\
    read (heap st') 0 = [EAdd 5 3 8] /\
    read (heap st') (getHistory st') = [ESquare 5 25] /\
    (read (heap st') (getHistory (call (add 5 3) (Aliasing.new_Calculator empty_heap)))
       = read (heap (call (add 5 3) (Aliasing.new_Calculator empty_heap)))
              (getHistory (call (add 5 3) (Aliasing.new_Calculator empty_heap))) /\
     List.length (read (heap st') (getHistory st')) = count_records [CallSquare (JSNumber 5)]).
Proof.
  assert (Hwf : wf (call (add 5 3) (Aliasing.new_Calculator empty_heap)))
    by (unfold wf; simpl; lia).
  split; [exact Hwf|].
  eexists. split; [reflexivity|]. split; [reflexivity|]. split; [reflexivity|].
  apply (clearHistory_detaches_array (fun x _ => sqrt x) (fun _ _ => 0%float)).
  - exact Hwf.
  - reflexivity.
Defined.

End AliasingTheorems.
